(** * gopherforms: the per-connection form session of [user.go]

    A shallow embedding of [User], [NewUser], [HandleForm], [SendForm] and
    [elemToMap], and the properties of the form session established on it.

    Conventions of the embedding:
    - [uint32] values are integers in [0, 2^32); [atomic.Uint32.Add] wraps;
    - Go maps are [gmap]s; [map[string]interface{}] is [gmap string JValue];
    - a call either returns, panics, or blocks for ever on the mutex
      ([Outcome]);
    - the key produced first by [range] over a map is unspecified in Go, so
      [SendForm] yields the list of all behaviours the runtime may show. *)

From Stdlib Require Import ZArith String Ascii PrimFloat.
From Stdlib.Strings Require Import Byte.
From stdpp Require Import gmap strings list fin_maps.

Local Open Scope Z_scope.
Local Open Scope string_scope.

(** ** Machine integers and byte slices *)

Definition uint32 : Type := Z.
Definition float64 : Type := PrimFloat.float.
Definition bytes : Type := list Byte.byte.

Definition uint32_modulus : Z := 2 ^ 32.

(** [atomic.Uint32.Add(delta)]: addition with wrap-around. *)
Definition Uint32_Add (x delta : uint32) : uint32 := (x + delta) mod uint32_modulus.

#[global] Instance byte_eq_decision : EqDecision Byte.byte := Byte.byte_eq_dec.

(** [bytes.Equal]: same length and same bytes; a nil slice equals an empty one. *)
Definition bytes_Equal (a b : bytes) : bool := bool_decide (a = b).

(** [strings.HasPrefix(s, prefix)]. *)
Definition HasPrefix (s prefix : string) : bool := String.prefix prefix s.

(** ** Outcomes of a call *)

Inductive PanicValue : Type :=
| ShouldNeverHappen
| IndexOutOfRange (index : Z) (length : nat).

Inductive Outcome (A : Type) : Type :=
| Returns (a : A)
| Panics (p : PanicValue)
| Blocks.
Arguments Returns {A} a.
Arguments Panics {A} p.
Arguments Blocks {A}.

#[global] Instance Outcome_ret : MRet Outcome := fun A a => Returns a.

#[global] Instance Outcome_bind : MBind Outcome := fun A B k o =>
  match o with
  | Returns a => k a
  | Panics p => Panics p
  | Blocks => Blocks
  end.

(** ** The [form] package of dragonfly, as far as [user.go] looks into it *)

Record Button : Type := { Text : string; Image : string }.

(** The dynamic types an [Element] interface value may have: the six
    element structs of the package, and any other value ([OtherElement]),
    such as the nil interface, a pointer to an element, or a struct that
    embeds one. *)
Inductive Element : Type :=
| Toggle (text : string) (default : bool)
| Input (text default placeholder : string)
| Label (text : string)
| Slider (text : string) (min max stepSize default : float64)
| Dropdown (text : string) (options : list string) (defaultIndex : Z)
| StepSlider (text : string) (options : list string) (defaultIndex : Z)
| OtherElement.

(** The dynamic types a [Form] interface value may have: the three form
    structs of the package, and any other value ([OtherForm]), such as the
    nil interface, a pointer to a form, or a struct that embeds one. *)
Inductive FormValue : Type :=
| Custom (title : string) (elements : list Element)
| Menu (title body : string) (buttons : list Button)
| Modal (title body : string) (buttons : list Button)
| OtherForm.

(** A [Form]: the value the type switch inspects, and its [SubmitJSON]
    method, which returns an error ([Some msg]) or nil ([None]).  The handler
    is opaque; its effects outside the session are not part of the model. *)
Record Form : Type := {
  value : FormValue;
  SubmitJSON : bytes -> option string
}.

(** ** Documents: [map[string]interface{}] and the values stored in it *)

#[warnings="-register-all"]
Inductive JValue : Type :=
| JString (s : string)
| JBool (b : bool)
| JFloat (x : float64)
| JInt (n : Z)
| JStrings (l : list string)
| JObject (m : gmap string JValue)
| JMaps (l : list (gmap string JValue)).

Abbreviation Document := (gmap string JValue).

(** ** [elemToMap] *)

Definition elemToMap (e : Element) : Outcome Document :=
  match e with
  | Toggle text default =>
      Returns (<["type" := JString "toggle"]>
               (<["text" := JString text]>
               (<["default" := JBool default]> ∅)))
  | Input text default placeholder =>
      Returns (<["type" := JString "input"]>
               (<["text" := JString text]>
               (<["default" := JString default]>
               (<["placeholder" := JString placeholder]> ∅))))
  | Label text =>
      Returns (<["type" := JString "label"]>
               (<["text" := JString text]> ∅))
  | Slider text min max stepSize default =>
      Returns (<["type" := JString "slider"]>
               (<["text" := JString text]>
               (<["min" := JFloat min]>
               (<["max" := JFloat max]>
               (<["step" := JFloat stepSize]>
               (<["default" := JFloat default]> ∅))))))
  | Dropdown text options defaultIndex =>
      Returns (<["type" := JString "dropdown"]>
               (<["text" := JString text]>
               (<["default" := JInt defaultIndex]>
               (<["options" := JStrings options]> ∅))))
  | StepSlider text options defaultIndex =>
      Returns (<["type" := JString "step_slider"]>
               (<["text" := JString text]>
               (<["default" := JInt defaultIndex]>
               (<["steps" := JStrings options]> ∅))))
  | OtherElement => Panics ShouldNeverHappen
  end.

(** ** [encoding/json]

    The printing of the leaves (string quoting and escaping, number
    formatting, string slices) belongs to [encoding/json] and is a parameter;
    a float that is not finite is an unsupported value ([None]), and then
    [json.Marshal] returns an error and no bytes.  The structure is the
    library's: the keys of a map are printed in sorted order, and a nil slice
    is printed as [null].  The slice [n] of [SendForm] is nil exactly when
    nothing was appended to it. *)

Class GoJSON : Type := {
  quote : string -> string;
  formatFloat : float64 -> option string;
  formatInt : Z -> string;
  marshalStrings : list string -> string
}.

Fixpoint insert_sorted (kv : string * string) (l : list (string * string))
  : list (string * string) :=
  match l with
  | [] => [kv]
  | kv' :: l' =>
      if String.leb (fst kv) (fst kv') then kv :: l else kv' :: insert_sorted kv l'
  end.

Definition sort_keys (l : list (string * string)) : list (string * string) :=
  foldr insert_sorted [] l.

Fixpoint join (sep : string) (l : list string) : string :=
  match l with
  | [] => ""
  | [s] => s
  | s :: l' => s ++ sep ++ join sep l'
  end.

(** A map whose values are already printed, or failed to print. *)
Definition object `{GoJSON} (members : gmap string (option string)) : option string :=
  kvs ← mapM (fun kv => v ← snd kv; Some (fst kv, v)) (map_to_list members);
  Some ("{" ++ join "," ((fun kv => quote (fst kv) ++ ":" ++ snd kv) <$> sort_keys kvs)
            ++ "}").

Fixpoint json_Marshal `{GoJSON} (v : JValue) : option string :=
  match v with
  | JString s => Some (quote s)
  | JBool b => Some (if b then "true" else "false")
  | JFloat x => formatFloat x
  | JInt n => Some (formatInt n)
  | JStrings l => Some (marshalStrings l)
  | JObject m => object (json_Marshal <$> m)
  | JMaps [] => Some "null"
  | JMaps l =>
      ms ← mapM id ((fun m => object (json_Marshal <$> m)) <$> l);
      Some ("[" ++ join "," ms ++ "]")
  end.

(** ** The encoding part of [SendForm] (the type switch on the form) *)

(** The body of the loop over the buttons of a [Menu]. *)
Definition menuButton (button : Button) : Document :=
  let v : Document := {["text" := JString (Text button)]} in
  if negb (String.eqb (Image button) "") then
    let buttonType :=
      if HasPrefix (Image button) "http:" || HasPrefix (Image button) "https:"
      then "url" else "path" in
    <["image" := JObject (<["type" := JString buttonType]>
                          (<["data" := JString (Image button)]> ∅))]> v
  else v.

(** The loop over the elements of a [Custom] form: the maps are appended in
    order, and the first panic of [elemToMap] ends the call. *)
Fixpoint elemsToMaps (es : list Element) : Outcome (list Document) :=
  match es with
  | [] => mret []
  | e :: es' => d ← elemToMap e; ds ← elemsToMaps es'; mret (d :: ds)
  end.

(** [buttons[i]]: a run-time panic when [i] is out of range. *)
Definition index (buttons : list Button) (i : nat) : Outcome Button :=
  match buttons !! i with
  | Some b => Returns b
  | None => Panics (IndexOutOfRange (Z.of_nat i) (length buttons))
  end.

(** The map [m] that [SendForm] hands to [json.Marshal].  The switch has no
    default case: for any other form, [m] stays empty. *)
Definition SendForm_encode (f : FormValue) : Outcome Document :=
  match f with
  | Custom title elements =>
      n ← elemsToMaps elements;
      mret (<["content" := JMaps n]>
            (<["title" := JString title]>
            (<["type" := JString "custom_form"]> ∅)))
  | Menu title body buttons =>
      let n := menuButton <$> buttons in
      mret (<["buttons" := JMaps n]>
            (<["content" := JString body]>
            (<["title" := JString title]>
            (<["type" := JString "form"]> ∅))))
  | Modal title body buttons =>
      b0 ← index buttons 0;
      b1 ← index buttons 1;
      mret (<["button2" := JString (Text b1)]>
            (<["button1" := JString (Text b0)]>
            (<["content" := JString body]>
            (<["title" := JString title]>
            (<["type" := JString "modal"]> ∅)))))
  | OtherForm => mret ∅
  end.

(** ** Packets *)

Module ModalFormResponse.
Record t : Type := { FormID : uint32; ResponseData : bytes }.
End ModalFormResponse.

Module ModalFormRequest.
Record t : Type := { FormID : uint32; FormData : string }.
End ModalFormRequest.

(** ** [User] *)

(** [mu] is the state of the mutex ([true]: held).  The connection is
    represented by what is written to it: [SendForm] returns its packet. *)
Record User : Type := {
  mu : bool;
  forms : gmap Z Form;
  localFormId : uint32;
  remoteFormId : uint32
}.

(** The word 'null' followed by a line feed. *)
Definition nullBytes : bytes := [x6e; x75; x6c; x6c; x0a]%byte.

Definition NewUser : User :=
  {| mu := false; forms := ∅; localFormId := 0; remoteFormId := 0 |}.

Definition Remote (u : User) : uint32 := remoteFormId u.

Definition Local (u : User) : uint32 := localFormId u.

(** ** [HandleForm] *)

(** What a call of [HandleForm] shows: the boolean it returns and the calls
    of [SubmitJSON] it made, each with the form and the bytes passed. *)
Record Handled : Type := {
  result : bool;
  submits : list (Form * bytes)
}.

(** [Lock] blocks while the mutex is held.  When the identifier is found the
    entry is deleted and the mutex released before the response is looked
    at; the test of [ok] that follows can only succeed.  When it is not
    found, the function returns false at once. *)
Definition HandleForm (pk : ModalFormResponse.t) (u : User) : Outcome (User * Handled) :=
  if mu u then Blocks else
  let FormID := ModalFormResponse.FormID pk in
  let ResponseData := ModalFormResponse.ResponseData pk in
  match forms u !! FormID with
  | Some f =>
      let ok := true in
      let u' := {| mu := false; forms := delete FormID (forms u);
                   localFormId := localFormId u; remoteFormId := remoteFormId u |} in
      if bytes_Equal ResponseData nullBytes || (length ResponseData =? 0)%nat then
        Returns (u', {| result := true; submits := [] |})
      else if negb ok then
        Returns (u', {| result := false; submits := [] |})
      else
        match SubmitJSON f ResponseData with
        | Some err => Returns (u', {| result := false; submits := [(f, ResponseData)] |})
        | None => Returns (u', {| result := true; submits := [(f, ResponseData)] |})
        end
  | None =>
      (* no Unlock on this path: the mutex stays held *)
      Returns ({| mu := true; forms := forms u;
                  localFormId := localFormId u; remoteFormId := remoteFormId u |},
               {| result := false; submits := [] |})
  end.

(** ** [SendForm] *)

(** [for k := range forms { delete(forms, k); break }]: the first key of the
    iteration is deleted.  Any key of the map may come first; on an empty map
    the body does not run. *)
Definition delete_first (m : gmap Z Form) : list (gmap Z Form) :=
  match map_to_list m with
  | [] => [m]
  | kvs => (fun kv => delete (fst kv) m) <$> kvs
  end.

(** The form is encoded and marshalled first; then, under the mutex, one
    entry is deleted if the table holds more than 10, the counter is
    incremented and the form stored under its new value; the packet is
    written after the mutex is released. *)
Definition SendForm `{GoJSON} (f : Form) (u : User)
  : list (Outcome (User * ModalFormRequest.t)) :=
  match SendForm_encode (value f) with
  | Panics p => [Panics p]
  | Blocks => [Blocks]
  | Returns m =>
      (* b, _ := json.Marshal(m): on an error b is nil *)
      let b := default "" (json_Marshal (JObject m)) in
      if mu u then [Blocks] else
      (fun forms1 =>
         let id := Uint32_Add (localFormId u) 1 in
         Returns ({| mu := false; forms := <[id := f]> forms1;
                     localFormId := id; remoteFormId := remoteFormId u |},
                  {| ModalFormRequest.FormID := id; ModalFormRequest.FormData := b |}))
      <$> (if (10 <? Z.of_nat (size (forms u)))%Z then delete_first (forms u)
           else [forms u])
  end.

(** ** Runs of a session *)

(** A run of [SendForm] calls that all return: the final session and the
    packets written, for every choice the runtime may make. *)
Fixpoint SendForms `{GoJSON} (fs : list Form) (u : User)
  : list (User * list ModalFormRequest.t) :=
  match fs with
  | [] => [(u, [])]
  | f :: fs' =>
      o ← SendForm f u;
      match o with
      | Returns (u', pk) => (fun r => (fst r, pk :: snd r)) <$> SendForms fs' u'
      | _ => []
      end
  end.

(** [run n u]: the session [u] is reached from a new user by calls of
    [SendForm] and [HandleForm] that returned, [n] of them [SendForm]. *)
Inductive run `{GoJSON} : nat -> User -> Prop :=
| run_new : run 0 NewUser
| run_send n u f u' pk :
    run n u -> Returns (u', pk) ∈ SendForm f u -> run (S n) u'
| run_handle n u pk u' h :
    run n u -> HandleForm pk u = Returns (u', h) -> run n u'.

(** ** Sample values, to run the model *)

(** A printer of the leaves that quotes without escaping. *)
Definition plainJSON : GoJSON := {|
  quote s := String "034" (s ++ String "034" "");
  formatFloat _ := Some "0";
  formatInt _ := "0";
  marshalStrings l := "[" ++ join "," ((fun s => String "034" (s ++ String "034" "")) <$> l) ++ "]"
|}.

Definition accept : bytes -> option string := fun _ => None.
Definition reject : bytes -> option string := fun _ => Some "bad response".

Definition confirm : Form :=
  {| value := Modal "Confirm" "Are you sure?"
                [ {| Text := "Yes"; Image := "" |}; {| Text := "No"; Image := "" |} ];
     SubmitJSON := accept |}.

Definition stranger : Form := {| value := OtherForm; SubmitJSON := accept |}.

Definition servers : Form :=
  {| value := Menu "Servers" "Pick one"
                [ {| Text := "Hub"; Image := "https://example.org/hub.png" |};
                  {| Text := "Survival"; Image := "textures/ui/sword" |};
                  {| Text := "Quit"; Image := "" |} ];
     SubmitJSON := reject |}.

(** A session with one form waiting under identifier 1, and two responses
    to it: a cancellation and an answer. *)
Definition waiting : User :=
  {| mu := false; forms := {[1 := confirm]}; localFormId := 1; remoteFormId := 0 |}.

Definition cancel1 : ModalFormResponse.t :=
  {| ModalFormResponse.FormID := 1; ModalFormResponse.ResponseData := nullBytes |}.

Definition answer1 : ModalFormResponse.t :=
  {| ModalFormResponse.FormID := 1;
     ModalFormResponse.ResponseData := [x74; x72; x75; x65; x0a]%byte |}.

(** ** Predicates of the statements *)

(** [s] starts with [p]. *)
Definition starts_with (s p : string) : Prop := exists rest, s = p ++ rest.

(** A response that stands for a cancelled form. *)
Definition cancelled (data : bytes) : Prop := data = [] \/ data = nullBytes.

(** The table after the eviction step of [SendForm]. *)
Definition evicted (m m1 : gmap Z Form) : Prop :=
  if (10 <? Z.of_nat (size m))%Z
  then exists k, is_Some (m !! k) /\ m1 = delete k m
  else m1 = m.

(** The table holds exactly the identifiers 1 to [c], the counter is [c] and
    the mutex is free. *)
Definition holds_first (c : Z) (u : User) : Prop :=
  mu u = false /\ localFormId u = c /\ size (forms u) = Z.to_nat c /\
  forall k, is_Some (forms u !! k) <-> 1 <= k <= c.

(** ** Sample runs *)

(** Eleven calls of [SendForm] on a new user: the session reached and the
    packets written. *)
Definition eleven_sends : User * list ModalFormRequest.t :=
  match @SendForms plainJSON (replicate 11 confirm) NewUser with
  | r :: _ => r
  | [] => (NewUser, [])
  end.

(** Twelve calls of [SendForm] in which the runtime always evicts the key it
    lists first: the session reached, and the packets written. *)
Definition twelve_sends : User * list ModalFormRequest.t :=
  match @SendForms plainJSON (replicate 12 confirm) NewUser with
  | r :: _ => r
  | [] => (NewUser, [])
  end.

(** ** The earlier [SendForm], without table and mutex *)

Module Legacy.

Record User : Type := {
  localFormId : uint32;
  remoteFormId : uint32
}.

Definition NewUser : User := {| localFormId := 0; remoteFormId := 0 |}.

Definition Remote (u : User) : uint32 := remoteFormId u.

Definition Local (u : User) : uint32 := localFormId u.

(** The answer of [conn.WritePacket] is the connection's, a parameter; the
    call returns the session, the packet written and the error returned. *)
Definition SendForm `{GoJSON} (WritePacket : ModalFormRequest.t -> option string)
    (f : Form) (u : User) : Outcome (User * ModalFormRequest.t * option string) :=
  m ← SendForm_encode (value f);
  let b := default "" (json_Marshal (JObject m)) in
  let id := Uint32_Add (localFormId u) 1 in
  let pk := {| ModalFormRequest.FormID := id; ModalFormRequest.FormData := b |} in
  let err := WritePacket pk in
  mret ({| localFormId := id; remoteFormId := remoteFormId u |}, pk, err).

End Legacy.

(** ** More sample values *)

(** A printer that refuses the floats [encoding/json] refuses. *)
Definition strictJSON : GoJSON := {|
  quote s := String "034" (s ++ String "034" "");
  formatFloat x := if PrimFloat.is_finite x then Some "0" else None;
  formatInt _ := "0";
  marshalStrings l := "[" ++ join "," ((fun s => String "034" (s ++ String "034" "")) <$> l) ++ "]"
|}.

Definition volume : Form :=
  {| value := Custom "Settings"
                [ Label "Sound";
                  Slider "Volume" PrimFloat.zero PrimFloat.nan PrimFloat.one PrimFloat.zero ];
     SubmitJSON := accept |}.

(** A connection that is closed: every write fails. *)
Definition closed : ModalFormRequest.t -> option string := fun _ => Some "closed".

(** The packet of [stranger] sent first, and the session after it. *)
Definition stranger_packet : ModalFormRequest.t :=
  {| ModalFormRequest.FormID := 1; ModalFormRequest.FormData := "{}" |}.

Definition stranger_sent : User :=
  {| mu := false; forms := {[1 := stranger]}; localFormId := 1; remoteFormId := 0 |}.

(** The type tag of the document of a form. *)
Definition type_tag (f : FormValue) : option JValue :=
  match f with
  | Custom _ _ => Some (JString "custom_form")
  | Menu _ _ _ => Some (JString "form")
  | Modal _ _ _ => Some (JString "modal")
  | OtherForm => None
  end.

(** The field [k] of a returned document. *)
Definition field (o : Outcome Document) (k : string) : option JValue :=
  match o with
  | Returns m => m !! k
  | _ => None
  end.

(** * Properties *)

Example json_Marshal_empty `{GoJSON} : json_Marshal (JObject ∅) = Some "{}".
Proof. reflexivity. Qed.

(** The first call of [SendForm] on a new user assigns identifier 1. *)
Example SendForm_first :
  (fun o => match o with
            | Returns (u', pk) =>
                Some (ModalFormRequest.FormID pk, Local u', size (forms u'))
            | _ => None
            end) <$> @SendForm plainJSON confirm NewUser
  = [Some (1, 1, 1%nat)].
Proof. vm_compute. reflexivity. Qed.

(** A response that the form rejects: [HandleForm] returns false after one
    call of [SubmitJSON], and the entry is gone. *)
Example HandleForm_rejected :
  HandleForm answer1
    {| mu := false; forms := {[1 := servers]}; localFormId := 1; remoteFormId := 0 |}
  = Returns ({| mu := false; forms := ∅; localFormId := 1; remoteFormId := 0 |},
             {| result := false;
                submits := [(servers, ModalFormResponse.ResponseData answer1)] |}).
Proof. vm_compute. reflexivity. Qed.

(** The types of the images of the buttons of [servers]. *)
Example servers_images :
  (fun b => match menuButton b !! "image" with
            | Some (JObject img) => img !! "type"
            | _ => None
            end) <$> match value servers with Menu _ _ bs => bs | _ => [] end
  = [Some (JString "url"); Some (JString "path"); None].
Proof. vm_compute. reflexivity. Qed.

(** ** The encoder *)

Lemma elemToMap_panics_iff (e : Element) :
  elemToMap e = Panics ShouldNeverHappen <-> e = OtherElement.
Proof. destruct e; simpl; split; intros E; (discriminate E || reflexivity). Qed.

Lemma elemToMap_returns (e : Element) :
  e <> OtherElement -> exists m, elemToMap e = Returns m.
Proof. destruct e; intros Hne; simpl; eauto. congruence. Qed.

Lemma elemsToMaps_returns (es : list Element) :
  Forall (fun e => e <> OtherElement) es ->
  exists n, elemsToMaps es = Returns n /\ length n = length es.
Proof.
  induction 1 as [|e es He _ IH]; simpl.
  - exists []. split; reflexivity.
  - destruct (elemToMap_returns e He) as [d ->]. destruct IH as (n & -> & Hn).
    exists (d :: n). simpl. split; [reflexivity | congruence].
Qed.

Ltac field_lookups :=
  repeat first
    [ rewrite lookup_insert_eq
    | rewrite lookup_insert_ne by discriminate
    | rewrite lookup_empty ];
  try reflexivity.

Ltac document_keys :=
  repeat rewrite dom_insert_L; rewrite dom_empty_L; set_solver.

(** C7: [elemToMap] gives every element variant a map with its type tag,
    its text and the extra fields of the variant, and no other key. *)
Theorem elemToMap_fields :
  (forall text default, exists m,
      elemToMap (Toggle text default) = Returns m /\
      dom m = {["type"; "text"; "default"]} /\
      m !! "type" = Some (JString "toggle") /\
      m !! "text" = Some (JString text) /\
      m !! "default" = Some (JBool default)) /\
  (forall text default placeholder, exists m,
      elemToMap (Input text default placeholder) = Returns m /\
      dom m = {["type"; "text"; "default"; "placeholder"]} /\
      m !! "type" = Some (JString "input") /\
      m !! "text" = Some (JString text) /\
      m !! "default" = Some (JString default) /\
      m !! "placeholder" = Some (JString placeholder)) /\
  (forall text, exists m,
      elemToMap (Label text) = Returns m /\
      dom m = {["type"; "text"]} /\
      m !! "type" = Some (JString "label") /\
      m !! "text" = Some (JString text)) /\
  (forall text min max stepSize default, exists m,
      elemToMap (Slider text min max stepSize default) = Returns m /\
      dom m = {["type"; "text"; "min"; "max"; "step"; "default"]} /\
      m !! "type" = Some (JString "slider") /\
      m !! "text" = Some (JString text) /\
      m !! "min" = Some (JFloat min) /\
      m !! "max" = Some (JFloat max) /\
      m !! "step" = Some (JFloat stepSize) /\
      m !! "default" = Some (JFloat default)) /\
  (forall text options defaultIndex, exists m,
      elemToMap (Dropdown text options defaultIndex) = Returns m /\
      dom m = {["type"; "text"; "default"; "options"]} /\
      m !! "type" = Some (JString "dropdown") /\
      m !! "text" = Some (JString text) /\
      m !! "default" = Some (JInt defaultIndex) /\
      m !! "options" = Some (JStrings options)) /\
  (forall text options defaultIndex, exists m,
      elemToMap (StepSlider text options defaultIndex) = Returns m /\
      dom m = {["type"; "text"; "default"; "steps"]} /\
      m !! "type" = Some (JString "step_slider") /\
      m !! "text" = Some (JString text) /\
      m !! "default" = Some (JInt defaultIndex) /\
      m !! "steps" = Some (JStrings options)).
Proof.
  repeat split; intros; eexists; (split; [reflexivity |]);
    (split; [document_keys |]); repeat split; field_lookups.
Qed.

Lemma HasPrefix_starts_with (s p : string) :
  HasPrefix s p = true <-> starts_with s p.
Proof.
  unfold HasPrefix, starts_with. revert s.
  induction p as [|c p IH]; intros s; simpl.
  - split; [intros _; exists s; reflexivity | intros _; destruct s; reflexivity].
  - destruct s as [|c' s]; simpl.
    + split; [discriminate | intros [rest E]; discriminate E].
    + destruct (Ascii.ascii_dec c c') as [->|Hne].
      * rewrite IH. split; intros [rest E]; exists rest.
        -- rewrite E. reflexivity.
        -- injection E. auto.
      * split; [discriminate | intros [rest E]; injection E; congruence].
Qed.

(** C8: in the document of a [Menu], every button contributes one map; the
    map has no image field exactly when the button has no image; otherwise
    the image field is an object whose data is the image reference and whose
    type is url exactly when the reference starts with http: or https:, and
    path if it does not. *)
Theorem Menu_button_image :
  forall title body buttons, exists m,
    SendForm_encode (Menu title body buttons) = Returns m /\
    m !! "buttons" = Some (JMaps (menuButton <$> buttons)) /\
    forall button,
      menuButton button !! "text" = Some (JString (Text button)) /\
      (menuButton button !! "image" = None <-> Image button = "") /\
      (Image button <> "" ->
       exists ty img,
         menuButton button !! "image" = Some (JObject img) /\
         dom img = {["type"; "data"]} /\
         img !! "type" = Some (JString ty) /\
         img !! "data" = Some (JString (Image button)) /\
         (ty = "url" <->
          starts_with (Image button) "http:" \/ starts_with (Image button) "https:") /\
         (ty = "path" <->
          ~ (starts_with (Image button) "http:" \/ starts_with (Image button) "https:"))).
Proof.
  intros title body buttons. eexists. split; [reflexivity |].
  split; [field_lookups |].
  intros [text image]. unfold menuButton. simpl.
  destruct (String.eqb_spec image "") as [->|Hne]; simpl.
  - split; [field_lookups |]. split; [split; auto; intros _; field_lookups |].
    intros Hne. congruence.
  - split; [field_lookups |]. split.
    { split; [rewrite lookup_insert_eq; discriminate | congruence]. }
    intros _.
    pose proof (HasPrefix_starts_with image "http:") as P1.
    pose proof (HasPrefix_starts_with image "https:") as P2.
    destruct (HasPrefix image "http:") eqn:E1; simpl;
      [| destruct (HasPrefix image "https:") eqn:E2; simpl ];
      eexists; eexists; (split; [apply lookup_insert_eq |]);
      (split; [document_keys |]); (split; [field_lookups |]);
      (split; [field_lookups |]);
      split; split; try discriminate; try reflexivity; intuition congruence.
Qed.

(** The encoding part of [SendForm] returns for every recognised form whose
    elements are recognised and, for a [Modal], whose two buttons are there. *)
Lemma SendForm_encode_returns (f : FormValue) :
  match f with
  | Custom _ elements => Forall (fun e => e <> OtherElement) elements
  | Menu _ _ _ => True
  | Modal _ _ buttons => (2 <= length buttons)%nat
  | OtherForm => True
  end ->
  exists m, SendForm_encode f = Returns m.
Proof.
  destruct f as [title es| title body bs | title body bs |]; simpl; intros Hf; eauto.
  - destruct (elemsToMaps_returns es Hf) as (n & -> & _). simpl. eauto.
  - destruct bs as [|b0 [|b1 bs]]; simpl in Hf; try lia. simpl. eauto.
Qed.

(** C6 (the code departs from it): [elemToMap] panics on an element of an
    unrecognised type, but the type switch of [SendForm] lets a form of an
    unrecognised type through with an empty map, and the call returns. *)
Theorem unrecognised_form_is_encoded `{GoJSON} :
  elemToMap OtherElement = Panics ShouldNeverHappen /\
  SendForm_encode (Custom "t" [OtherElement]) = Panics ShouldNeverHappen /\
  SendForm_encode OtherForm = Returns ∅ /\
  exists u' pk, SendForm stranger NewUser = [Returns (u', pk)].
Proof.
  repeat split. eexists; eexists. reflexivity.
Qed.

(** ** [HandleForm] *)

Lemma cancelled_test (data : bytes) :
  bytes_Equal data nullBytes || (length data =? 0)%nat = true <-> cancelled data.
Proof.
  unfold cancelled, bytes_Equal.
  rewrite orb_true_iff, bool_decide_eq_true, Nat.eqb_eq.
  split; (intros [E|E]; [right | left]); auto.
  - destruct data; [reflexivity | discriminate E].
  - rewrite E. reflexivity.
Qed.



Lemma HandleForm_absent (pk : ModalFormResponse.t) (u : User) :
  mu u = false ->
  forms u !! ModalFormResponse.FormID pk = None ->
  HandleForm pk u =
    Returns ({| mu := true; forms := forms u; localFormId := localFormId u;
                remoteFormId := remoteFormId u |},
             {| result := false; submits := [] |}).
Proof. intros Hmu Hf. unfold HandleForm. rewrite Hmu, Hf. reflexivity. Qed.

Lemma HandleForm_present (pk : ModalFormResponse.t) (u : User) (f : Form) :
  mu u = false ->
  forms u !! ModalFormResponse.FormID pk = Some f ->
  exists h,
    HandleForm pk u =
      Returns ({| mu := false; forms := delete (ModalFormResponse.FormID pk) (forms u);
                  localFormId := localFormId u; remoteFormId := remoteFormId u |}, h) /\
    (submits h = [] \/ submits h = [(f, ModalFormResponse.ResponseData pk)]).
Proof.
  intros Hmu Hf. unfold HandleForm. rewrite Hmu, Hf.
  destruct (bytes_Equal _ _ || _); simpl; [eauto |].
  destruct (SubmitJSON f _); eauto.
Qed.

(** C2: the call of [HandleForm] that finds the identifier removes the entry
    whatever the response is and whatever [SubmitJSON] answers, and calls
    [SubmitJSON] at most once, on the form of that entry; a second call with
    the same identifier returns false without a call of [SubmitJSON]. *)
Theorem HandleForm_at_most_once (pk : ModalFormResponse.t) (u : User) (f : Form) :
  mu u = false ->
  forms u !! ModalFormResponse.FormID pk = Some f ->
  exists u' h,
    HandleForm pk u = Returns (u', h) /\
    forms u' = delete (ModalFormResponse.FormID pk) (forms u) /\
    forms u' !! ModalFormResponse.FormID pk = None /\
    (submits h = [] \/ submits h = [(f, ModalFormResponse.ResponseData pk)]) /\
    (length (submits h) <= 1)%nat /\
    forall pk2,
      ModalFormResponse.FormID pk2 = ModalFormResponse.FormID pk ->
      exists u'',
        HandleForm pk2 u' = Returns (u'', {| result := false; submits := [] |}) /\
        forms u'' = forms u'.
Proof.
  intros Hmu Hf.
  destruct (HandleForm_present pk u f Hmu Hf) as (h & Hh & Hs).
  eexists; exists h. split; [exact Hh |]. simpl.
  split; [reflexivity |]. split; [apply lookup_delete_eq |].
  split; [exact Hs |]. split; [destruct Hs as [-> | ->]; simpl; lia |].
  intros pk2 Hid. eexists. split.
  - apply HandleForm_absent; simpl; [reflexivity |].
    rewrite Hid. apply lookup_delete_eq.
  - reflexivity.
Qed.

Lemma HandleForm_at_most_once_witness :
  exists u' h,
    HandleForm answer1 waiting = Returns (u', h) /\
    forms u' = delete (ModalFormResponse.FormID answer1) (forms waiting) /\
    forms u' !! ModalFormResponse.FormID answer1 = None /\
    (submits h = [] \/
     submits h = [(confirm, ModalFormResponse.ResponseData answer1)]) /\
    (length (submits h) <= 1)%nat /\
    forall pk2,
      ModalFormResponse.FormID pk2 = ModalFormResponse.FormID answer1 ->
      exists u'',
        HandleForm pk2 u' = Returns (u'', {| result := false; submits := [] |}) /\
        forms u'' = forms u'.
Proof.
  apply (HandleForm_at_most_once answer1 waiting confirm).
  - reflexivity.
  - reflexivity.
Defined.

(** C3 (the code departs from it): for an identifier that is not in the
    table, [HandleForm] returns false, calls no [SubmitJSON] and leaves the
    table and both counters as they were, but it returns with the mutex
    held: the next call on the session, whatever it is, blocks. *)
Theorem HandleForm_absent_holds_mutex `{GoJSON} :
  forall (FormID : uint32) (ResponseData : bytes),
    let pk := {| ModalFormResponse.FormID := FormID;
                 ModalFormResponse.ResponseData := ResponseData |} in
    exists u',
      HandleForm pk NewUser = Returns (u', {| result := false; submits := [] |}) /\
      forms u' = forms NewUser /\
      localFormId u' = localFormId NewUser /\
      remoteFormId u' = remoteFormId NewUser /\
      mu u' = true /\
      HandleForm pk u' = Blocks /\
      SendForm confirm u' = [Blocks].
Proof.
  intros FormID ResponseData pk. eexists. split; [reflexivity |].
  repeat split.
Qed.

(** ** [SendForm] *)

Lemma elem_of_delete_first (m m' : gmap Z Form) :
  m' ∈ delete_first m <->
  (m = ∅ /\ m' = ∅) \/ (exists k, is_Some (m !! k) /\ m' = delete k m).
Proof.
  unfold delete_first. destruct (map_to_list m) as [|kv kvs] eqn:E.
  - apply map_to_list_empty_iff in E. subst m.
    rewrite list_elem_of_singleton. split.
    + intros ->. left. split; reflexivity.
    + intros [[_ ->] | (k & [x Hk] & _)]; [reflexivity |].
      rewrite lookup_empty in Hk. discriminate Hk.
  - rewrite <- E. rewrite list_elem_of_fmap. split.
    + intros ([k x] & -> & Hin). apply elem_of_map_to_list in Hin.
      right. exists k. split; [exists x; exact Hin | reflexivity].
    + intros [[-> _] | (k & [x Hk] & ->)].
      * rewrite map_to_list_empty in E. discriminate E.
      * exists (k, x). split; [reflexivity |]. apply elem_of_map_to_list. exact Hk.
Qed.

Lemma SendForm_returns `{GoJSON} (f : Form) (u u' : User) (pk : ModalFormRequest.t) :
  Returns (u', pk) ∈ SendForm f u <->
  exists m forms1,
    SendForm_encode (value f) = Returns m /\
    mu u = false /\
    evicted (forms u) forms1 /\
    u' = {| mu := false; forms := <[Uint32_Add (localFormId u) 1 := f]> forms1;
            localFormId := Uint32_Add (localFormId u) 1;
            remoteFormId := remoteFormId u |} /\
    pk = {| ModalFormRequest.FormID := Uint32_Add (localFormId u) 1;
            ModalFormRequest.FormData := default "" (json_Marshal (JObject m)) |}.
Proof.
  unfold SendForm, evicted.
  destruct (SendForm_encode (value f)) as [m|p|] eqn:Em.
  2,3: split; [ intros Hin; apply list_elem_of_singleton in Hin; discriminate Hin
              | intros (m & forms1 & Hm & _); discriminate Hm ].
  destruct (mu u) eqn:Hmu.
  { split; [ intros Hin; apply list_elem_of_singleton in Hin; discriminate Hin
           | intros (m0 & forms1 & _ & Hu & _); discriminate Hu ]. }
  rewrite list_elem_of_fmap. split.
  - intros (forms1 & E & Hin). injection E as -> ->.
    exists m, forms1. repeat split; try reflexivity.
    destruct (10 <? Z.of_nat (size (forms u)))%Z eqn:Hsz.
    + apply elem_of_delete_first in Hin as [[Hempty _] | Hk]; [| exact Hk].
      rewrite Hempty, map_size_empty in Hsz. discriminate Hsz.
    + apply list_elem_of_singleton in Hin. exact Hin.
  - intros (m0 & forms1 & Hm & _ & Hev & -> & ->). injection Hm as <-.
    exists forms1. split; [reflexivity |].
    destruct (10 <? Z.of_nat (size (forms u)))%Z eqn:Hsz.
    + apply elem_of_delete_first. right. exact Hev.
    + apply list_elem_of_singleton. exact Hev.
Qed.

Lemma SendForm_outcomes `{GoJSON} (f : Form) (u : User) (m : Document) :
  SendForm_encode (value f) = Returns m ->
  mu u = false ->
  SendForm f u <> [] /\
  forall o, o ∈ SendForm f u -> exists u' pk, o = Returns (u', pk).
Proof.
  intros Hm Hmu. unfold SendForm. rewrite Hm, Hmu. split.
  - destruct (10 <? Z.of_nat (size (forms u)))%Z; [| discriminate].
    unfold delete_first. destruct (map_to_list (forms u)); discriminate.
  - intros o Hin. apply list_elem_of_fmap in Hin as (forms1 & -> & _). eauto.
Qed.



(** ** The size of the table *)

Lemma size_insert_le (k : Z) (f : Form) (m : gmap Z Form) :
  (size (<[k := f]> m) <= S (size m))%nat.
Proof. rewrite map_size_insert. destruct (m !! k); simpl; lia. Qed.

Lemma size_delete_le (k : Z) (m : gmap Z Form) :
  (size (delete k m) <= size m)%nat.
Proof. rewrite map_size_delete. destruct (m !! k); simpl; lia. Qed.

Lemma evicted_size (m m1 : gmap Z Form) :
  evicted m m1 ->
  ((size m <= 10)%nat /\ m1 = m) \/
  ((10 < size m)%nat /\ size m1 = pred (size m) /\
   exists k, is_Some (m !! k) /\ m1 = delete k m).
Proof.
  unfold evicted. destruct (10 <? Z.of_nat (size m))%Z eqn:Hsz.
  - apply Z.ltb_lt in Hsz. intros (k & Hk & ->). right.
    split; [lia |]. split; [apply map_size_delete_Some; exact Hk | eauto].
  - apply Z.ltb_ge in Hsz. intros ->. left. split; [lia | reflexivity].
Qed.

Lemma SendForms_run `{GoJSON} (fs : list Form) :
  forall n u u' pks,
    run n u -> (u', pks) ∈ SendForms fs u -> run (n + length fs) u'.
Proof.
  induction fs as [|f fs IH]; intros n u u' pks Hrun Hin; simpl in Hin.
  - apply list_elem_of_singleton in Hin. injection Hin as -> _.
    simpl. rewrite Nat.add_0_r. exact Hrun.
  - apply list_elem_of_bind in Hin as (o & Hin & Ho).
    destruct o as [[u1 pk]| |]; try (apply elem_of_nil in Hin; contradiction).
    apply list_elem_of_fmap in Hin as ([u2 pks2] & E & Hin). injection E as -> _.
    simpl. replace (n + S (length fs))%nat with (S n + length fs)%nat by lia.
    apply (IH (S n) u1 u2 pks2); [| exact Hin].
    apply (run_send n u f u1 pk Hrun Ho).
Qed.

(** C9: in every session reached from a new user by calls of [SendForm] and
    [HandleForm], the table holds at most 11 entries. *)
Theorem forms_at_most_11 `{GoJSON} (n : nat) (u : User) :
  run n u -> (size (forms u) <= 11)%nat.
Proof.
  induction 1 as [| n u f u' pk _ IH Hsend | n u pk u' h _ IH Hhandle].
  - simpl. rewrite map_size_empty. lia.
  - apply SendForm_returns in Hsend as (m & forms1 & _ & _ & Hev & -> & _). simpl.
    eapply Nat.le_trans; [apply size_insert_le |].
    apply evicted_size in Hev as [[Hs ->] | (Hs & Hs1 & _)]; lia.
  - unfold HandleForm in Hhandle. destruct (mu u); [discriminate Hhandle |].
    destruct (forms u !! ModalFormResponse.FormID pk) as [f|].
    + destruct (bytes_Equal _ _ || _); simpl in Hhandle;
        [| destruct (SubmitJSON f _)]; injection Hhandle as <- _; simpl;
        (eapply Nat.le_trans; [apply size_delete_le | exact IH]).
    + injection Hhandle as <- _. simpl. exact IH.
Qed.

Lemma forms_at_most_11_witness : (size (forms (fst twelve_sends)) <= 11)%nat.
Proof.
  apply (@forms_at_most_11 plainJSON 12 (fst twelve_sends)).
  apply (@SendForms_run plainJSON (replicate 12 confirm) 0 NewUser
           (fst twelve_sends) (snd twelve_sends)).
  - apply run_new.
  - vm_compute. left.
Defined.

(** ** Eleven calls of [SendForm] on a new user *)

Lemma Uint32_Add_small (x : uint32) :
  0 <= x -> x + 1 < uint32_modulus -> Uint32_Add x 1 = x + 1.
Proof. intros H0 H1. unfold Uint32_Add. apply Z.mod_small. lia. Qed.

Lemma holds_first_SendForm `{GoJSON} (c : Z) (f : Form) (u u' : User)
    (pk : ModalFormRequest.t) :
  0 <= c <= 10 ->
  holds_first c u ->
  Returns (u', pk) ∈ SendForm f u ->
  holds_first (c + 1) u' /\ ModalFormRequest.FormID pk = c + 1 /\
  forms u' = <[c + 1 := f]> (forms u).
Proof.
  intros Hc (Hmu & Hid & Hsz & Hkeys) Hsend.
  apply SendForm_returns in Hsend as (m & forms1 & _ & _ & Hev & -> & ->).
  rewrite Hid, Uint32_Add_small by (unfold uint32_modulus; lia).
  apply evicted_size in Hev as [[_ ->] | [Hbig _]]; [| lia].
  assert (Hnew : forms u !! (c + 1) = None).
  { apply eq_None_not_Some. rewrite Hkeys. lia. }
  simpl. split; [| split; reflexivity].
  unfold holds_first. simpl. split; [reflexivity |]. split; [reflexivity |]. split.
  - rewrite map_size_insert_None by exact Hnew. lia.
  - intros k. rewrite lookup_insert_is_Some, Hkeys. lia.
Qed.

Lemma holds_first_SendForms `{GoJSON} (fs : list Form) :
  forall c u u' pks,
    0 <= c -> c + Z.of_nat (length fs) <= 11 ->
    holds_first c u ->
    (u', pks) ∈ SendForms fs u ->
    holds_first (c + Z.of_nat (length fs)) u'.
Proof.
  induction fs as [|f fs IH]; intros c u u' pks Hc Hlen Hu Hin; simpl in Hin.
  - apply list_elem_of_singleton in Hin. injection Hin as -> _.
    simpl. rewrite Z.add_0_r. exact Hu.
  - apply list_elem_of_bind in Hin as (o & Hin & Ho).
    destruct o as [[u1 pk]| |]; try (apply elem_of_nil in Hin; contradiction).
    apply list_elem_of_fmap in Hin as ([u2 pks2] & E & Hin). injection E as -> _.
    simpl length in *.
    assert (Hu1 : holds_first (c + 1) u1).
    { apply (holds_first_SendForm c f u u1 pk); [lia | exact Hu | exact Ho]. }
    replace (c + Z.of_nat (S (length fs))) with ((c + 1) + Z.of_nat (length fs)) by lia.
    apply (IH (c + 1) u1 u2 pks2); [lia | lia | exact Hu1 | exact Hin].
Qed.

Lemma holds_first_NewUser : holds_first 0 NewUser.
Proof.
  unfold holds_first. simpl. split; [reflexivity |]. split; [reflexivity |].
  split; [apply map_size_empty |].
  intros k. rewrite lookup_empty. split; [intros [x Hx]; discriminate Hx | lia].
Qed.

(** C1 as the spec states it fails: on a new user, eleven calls of [SendForm]
    leave eleven entries, under the identifiers 1 to 11, whatever the runtime
    chooses; nothing is evicted. *)
Lemma eleven_sends_leave_eleven :
  (fun r => (size (forms (fst r)),
             forallb (fun k => bool_decide (is_Some (forms (fst r) !! k))) (seqZ 1 11)))
    <$> @SendForms plainJSON (replicate 11 confirm) NewUser
  = [(11%nat, true)].
Proof. vm_compute. reflexivity. Qed.

(** C1, amended: eleven calls of [SendForm] on a new user leave exactly
    eleven entries, the identifiers 1 to 11, and none is evicted.  A call of
    [SendForm] evicts exactly one entry before it inserts when the table
    already holds more than 10 entries, that is 11 or more, and none when it
    holds 10 or fewer; any entry of the table may be the one evicted. *)
Theorem SendForm_evicts_above_10 `{GoJSON} :
  (forall fs u' pks,
      length fs = 11%nat ->
      (u', pks) ∈ SendForms fs NewUser ->
      size (forms u') = 11%nat /\
      forall k, is_Some (forms u' !! k) <-> 1 <= k <= 11) /\
  (forall f u u' pk,
      Returns (u', pk) ∈ SendForm f u ->
      ((size (forms u) <= 10)%nat /\
       forms u' = <[ModalFormRequest.FormID pk := f]> (forms u)) \/
      ((10 < size (forms u))%nat /\
       exists k, is_Some (forms u !! k) /\
         size (delete k (forms u)) = pred (size (forms u)) /\
         forms u' = <[ModalFormRequest.FormID pk := f]> (delete k (forms u)))) /\
  (forall f u m k,
      SendForm_encode (value f) = Returns m ->
      mu u = false ->
      (10 < size (forms u))%nat ->
      is_Some (forms u !! k) ->
      exists u' pk,
        Returns (u', pk) ∈ SendForm f u /\
        forms u' = <[ModalFormRequest.FormID pk := f]> (delete k (forms u))).
Proof.
  split; [| split].
  - intros fs u' pks Hlen Hin.
    assert (Hfin : holds_first (0 + Z.of_nat (length fs)) u').
    { apply (holds_first_SendForms fs 0 NewUser u' pks);
        [lia | lia | apply holds_first_NewUser | exact Hin]. }
    rewrite Hlen in Hfin. destruct Hfin as (_ & _ & Hsz & Hkeys).
    split; [exact Hsz | exact Hkeys].
  - intros f u u' pk Hsend.
    apply SendForm_returns in Hsend as (m & forms1 & _ & _ & Hev & -> & ->). simpl.
    apply evicted_size in Hev as [[Hs ->] | (Hs & Hs1 & k & Hk & ->)].
    + left. split; [exact Hs | reflexivity].
    + right. split; [exact Hs |]. exists k. repeat split; assumption.
  - intros f u m k Hm Hmu Hs Hk.
    eexists; eexists. split.
    + apply SendForm_returns. exists m, (delete k (forms u)).
      repeat split; try eassumption; try reflexivity.
      unfold evicted. replace (10 <? Z.of_nat (size (forms u)))%Z with true
        by (symmetry; apply Z.ltb_lt; lia).
      exists k. split; [exact Hk | reflexivity].
    + reflexivity.
Qed.

Lemma SendForm_evicts_above_10_witness :
  size (forms (fst eleven_sends)) = 11%nat /\
  forall k, is_Some (forms (fst eleven_sends) !! k) <-> 1 <= k <= 11.
Proof.
  apply (proj1 (@SendForm_evicts_above_10 plainJSON)
           (replicate 11 confirm) (fst eleven_sends) (snd eleven_sends)).
  - reflexivity.
  - vm_compute. left.
Defined.

(** ** Identifiers *)

Lemma HandleForm_returns (pk : ModalFormResponse.t) (u u' : User) (h : Handled) :
  HandleForm pk u = Returns (u', h) ->
  localFormId u' = localFormId u /\ remoteFormId u' = remoteFormId u /\
  (forms u' = forms u \/ forms u' = delete (ModalFormResponse.FormID pk) (forms u)).
Proof.
  unfold HandleForm. destruct (mu u); [discriminate |].
  destruct (forms u !! ModalFormResponse.FormID pk) as [f|].
  - destruct (bytes_Equal _ _ || _); simpl;
      [| destruct (SubmitJSON f _)]; intros E; injection E as <- _; simpl; auto.
  - intros E; injection E as <- _; simpl; auto.
Qed.

(** After [n] calls of [SendForm] the counter is [n] modulo 2^32, and every
    identifier in the table was assigned by one of these calls. *)
Lemma run_counter `{GoJSON} (n : nat) (u : User) :
  run n u ->
  localFormId u = Z.of_nat n mod uint32_modulus /\
  forall k, is_Some (forms u !! k) ->
    exists i, (1 <= i <= n)%nat /\ k = Z.of_nat i mod uint32_modulus.
Proof.
  induction 1 as [| n u f u' pk _ [IHid IHkeys] Hsend | n u pk u' h _ [IHid IHkeys] Hhandle].
  - split; [reflexivity |]. intros k [x Hx].
    change (forms NewUser) with (∅ : gmap Z Form) in Hx.
    rewrite lookup_empty in Hx. discriminate Hx.
  - apply SendForm_returns in Hsend as (m & forms1 & _ & _ & Hev & -> & _). simpl.
    assert (Hid : Uint32_Add (localFormId u) 1 = Z.of_nat (S n) mod uint32_modulus).
    { unfold Uint32_Add. rewrite IHid, Zplus_mod_idemp_l. f_equal. lia. }
    split; [exact Hid |]. intros k Hk.
    apply lookup_insert_is_Some in Hk as [<- | [_ Hk]].
    + exists (S n). split; [lia | exact Hid].
    + assert (Hk' : is_Some (forms u !! k)).
      { apply evicted_size in Hev as [[_ ->] | (_ & _ & k0 & _ & ->)]; [exact Hk |].
        apply lookup_delete_is_Some in Hk as [_ Hk]. exact Hk. }
      destruct (IHkeys k Hk') as (i & Hi & ->). exists i. split; [lia | reflexivity].
  - apply HandleForm_returns in Hhandle as (-> & _ & Hforms).
    split; [exact IHid |]. intros k Hk. apply IHkeys.
    destruct Hforms as [E | E]; rewrite E in Hk; [exact Hk |].
    apply lookup_delete_is_Some in Hk as [_ Hk]. exact Hk.
Qed.

(** C5: after [n] calls of [SendForm], [Local] is [n] modulo 2^32, the
    identifier last assigned; the next call assigns the successor modulo
    2^32, which is 1 on a new user, and [Local] returns it afterwards.  Until
    the counter wraps around, the new identifier is greater than the one
    before and is not in the table when it is assigned. *)
Theorem SendForm_identifiers `{GoJSON} (n : nat) (u : User) :
  run n u ->
  Local u = Z.of_nat n mod uint32_modulus /\
  forall f u' pk,
    Returns (u', pk) ∈ SendForm f u ->
    ModalFormRequest.FormID pk = Uint32_Add (Local u) 1 /\
    ModalFormRequest.FormID pk = Z.of_nat (S n) mod uint32_modulus /\
    Local u' = ModalFormRequest.FormID pk /\
    forms u' !! ModalFormRequest.FormID pk = Some f /\
    (n = 0%nat -> ModalFormRequest.FormID pk = 1) /\
    (Z.of_nat (S n) < uint32_modulus ->
     Local u < ModalFormRequest.FormID pk /\
     forms u !! ModalFormRequest.FormID pk = None).
Proof.
  intros Hrun. destruct (run_counter n u Hrun) as [Hid Hkeys].
  split; [exact Hid |]. intros f u' pk Hsend.
  destruct (run_counter (S n) u' (run_send n u f u' pk Hrun Hsend)) as [Hid' _].
  apply SendForm_returns in Hsend as (m & forms1 & _ & _ & _ & -> & ->).
  simpl in *. unfold Local.
  split; [reflexivity |]. split; [exact Hid' |]. split; [reflexivity |].
  split; [apply lookup_insert_eq |]. split.
  - intros ->. rewrite Hid'. reflexivity.
  - intros Hsmall. rewrite Hid', Hid.
    rewrite !Z.mod_small by lia. split; [lia |].
    apply eq_None_not_Some. intros Hk.
    destruct (Hkeys _ Hk) as (i & Hi & E).
    rewrite Z.mod_small in E by lia. lia.
Qed.

Lemma SendForm_identifiers_witness :
  Local (fst eleven_sends) = Z.of_nat 11 mod uint32_modulus /\
  forall f u' pk,
    Returns (u', pk) ∈ @SendForm plainJSON f (fst eleven_sends) ->
    ModalFormRequest.FormID pk = Uint32_Add (Local (fst eleven_sends)) 1 /\
    ModalFormRequest.FormID pk = Z.of_nat 12 mod uint32_modulus /\
    Local u' = ModalFormRequest.FormID pk /\
    forms u' !! ModalFormRequest.FormID pk = Some f /\
    (11%nat = 0%nat -> ModalFormRequest.FormID pk = 1) /\
    (Z.of_nat 12 < uint32_modulus ->
     Local (fst eleven_sends) < ModalFormRequest.FormID pk /\
     forms (fst eleven_sends) !! ModalFormRequest.FormID pk = None).
Proof.
  apply (@SendForm_identifiers plainJSON 11 (fst eleven_sends)).
  apply (@SendForms_run plainJSON (replicate 11 confirm) 0 NewUser
           (fst eleven_sends) (snd eleven_sends)).
  - apply run_new.
  - vm_compute. left.
Defined.

(** ** The counter wraps around *)

(** Eviction takes any entry, so it may always spare the one of
    identifier 1. *)
Lemma evicted_may_spare (m : gmap Z Form) :
  is_Some (m !! 1) -> exists m1, evicted m m1 /\ is_Some (m1 !! 1).
Proof.
  intros H1. unfold evicted. destruct (10 <? Z.of_nat (size m))%Z eqn:Hsz.
  - apply Z.ltb_lt in Hsz.
    assert (Hrest : size (delete 1 m) <> 0%nat).
    { rewrite map_size_delete_Some by exact H1. lia. }
    apply map_size_ne_0_lookup_1 in Hrest as [i Hi].
    apply lookup_delete_is_Some in Hi as [Hne Hi].
    exists (delete i m). split; [exists i; split; [exact Hi | reflexivity] |].
    apply lookup_delete_is_Some. split; [congruence | exact H1].
  - exists m. split; [reflexivity | exact H1].
Qed.

(** Hence the entry of identifier 1 may stay in the table for as many calls
    of [SendForm] as one likes. *)
Lemma first_identifier_may_stay `{GoJSON} (n : nat) :
  exists u, run (S n) u /\ mu u = false /\ is_Some (forms u !! 1).
Proof.
  induction n as [|n (u & Hrun & Hmu & H1)].
  - eexists. split; [| split].
    + eapply (run_send 0 NewUser stranger); [apply run_new |].
      apply SendForm_returns. exists ∅, ∅.
      split; [reflexivity |]. split; [reflexivity |]. split; [reflexivity |].
      split; reflexivity.
    + reflexivity.
    + simpl. exists stranger. reflexivity.
  - destruct (evicted_may_spare (forms u) H1) as (forms1 & Hev & H1').
    eexists. split; [| split].
    + eapply (run_send (S n) u stranger); [exact Hrun |].
      apply SendForm_returns. exists ∅, forms1.
      split; [reflexivity |]. split; [exact Hmu |]. split; [exact Hev |].
      split; reflexivity.
    + reflexivity.
    + simpl. apply lookup_insert_is_Some'. right. exact H1'.
Qed.

(** After 2^32 calls of [SendForm] the counter is 0 again, and the next call
    assigns identifier 1, which may still be in the table: an identifier is
    fresh only as long as the counter has not wrapped around. *)
Lemma identifier_reused_after_wraparound `{GoJSON} :
  exists n u u' pk,
    run n u /\
    Returns (u', pk) ∈ SendForm stranger u /\
    ModalFormRequest.FormID pk = 1 /\
    is_Some (forms u !! ModalFormRequest.FormID pk).
Proof.
  remember (Z.to_nat (uint32_modulus - 1)) as N eqn:HN.
  assert (HNz : Z.of_nat (S N) = uint32_modulus).
  { rewrite Nat2Z.inj_succ, HN, Z2Nat.id; unfold uint32_modulus; lia. }
  clear HN.
  destruct (first_identifier_may_stay N) as (u & Hrun & Hmu & H1).
  destruct (run_counter (S N) u Hrun) as [Hid _].
  rewrite HNz, Z_mod_same_full in Hid.
  destruct (evicted_may_spare (forms u) H1) as (forms1 & Hev & _).
  exists (S N), u. eexists; eexists. split; [exact Hrun |]. split.
  - apply SendForm_returns. exists ∅, forms1.
    split; [reflexivity |]. split; [exact Hmu |]. split; [exact Hev |].
    split; reflexivity.
  - simpl. rewrite Hid. split; [reflexivity | exact H1].
Qed.

(** * Further properties *)

(** ** The encoder is lossless *)

Ltac fields_of H :=
  pose proof (f_equal (fun o => field o "type") H);
  pose proof (f_equal (fun o => field o "text") H);
  pose proof (f_equal (fun o => field o "default") H);
  pose proof (f_equal (fun o => field o "placeholder") H);
  pose proof (f_equal (fun o => field o "min") H);
  pose proof (f_equal (fun o => field o "max") H);
  pose proof (f_equal (fun o => field o "step") H);
  pose proof (f_equal (fun o => field o "options") H);
  pose proof (f_equal (fun o => field o "steps") H).

Ltac lookups_in H :=
  repeat first
    [ rewrite lookup_insert_eq in H
    | rewrite lookup_singleton_eq in H
    | rewrite lookup_insert_ne in H by discriminate
    | rewrite lookup_singleton_ne in H by discriminate
    | rewrite lookup_empty in H ].

Lemma elemToMap_same_map (e1 e2 : Element) :
  e1 <> OtherElement -> elemToMap e1 = elemToMap e2 -> e1 = e2.
Proof.
  intros Hne H. fields_of H. clear H.
  destruct e1, e2; try congruence; vm_compute in *; congruence.
Qed.

(** X1: [elemToMap] loses nothing: two elements with the same map are the
    same element, of the same type and with the same fields. *)
Theorem elemToMap_inj (e1 e2 : Element) :
  e1 <> OtherElement -> elemToMap e1 = elemToMap e2 -> e1 = e2.
Proof. exact (elemToMap_same_map e1 e2). Qed.

Lemma elemToMap_inj_witness : Label "Sound" = Label "Sound".
Proof.
  apply (elemToMap_inj (Label "Sound") (Label "Sound")).
  - discriminate.
  - reflexivity.
Defined.

Lemma elemsToMaps_Forall2 (es : list Element) (n : list Document) :
  elemsToMaps es = Returns n <-> Forall2 (fun e d => elemToMap e = Returns d) es n.
Proof.
  revert n. induction es as [|e es IH]; intros n; simpl.
  - split.
    + intros E. injection E as <-. constructor.
    + intros F. inversion F. reflexivity.
  - split.
    + intros E. destruct (elemToMap e) as [d| |] eqn:Ee; simpl in E; try discriminate E.
      destruct (elemsToMaps es) as [ds| |]; simpl in E; try discriminate E.
      injection E as <-. constructor; [exact Ee |]. apply IH. reflexivity.
    + intros F. inversion F as [|? d ? ds Hd Hds]; subst.
      rewrite Hd. simpl. apply IH in Hds. rewrite Hds. reflexivity.
Qed.

Lemma elemsToMaps_panics (es : list Element) :
  Exists (fun e => e = OtherElement) es -> elemsToMaps es = Panics ShouldNeverHappen.
Proof.
  induction es as [|e es IH]; intros Hex; [inversion Hex |]. simpl.
  assert (Hdec : e = OtherElement \/ e <> OtherElement)
    by (destruct e; (left; reflexivity) || (right; discriminate)).
  destruct Hdec as [-> | Hne]; [reflexivity |].
  destruct (elemToMap_returns e Hne) as [d ->]. simpl.
  rewrite IH; [reflexivity |]. inversion Hex; [contradiction | assumption].
Qed.

(** X2: the document of a [Custom] form has the keys type, title and
    content; content holds the maps of the elements, one for each and in
    their order.  The call panics instead as soon as one element is of an
    unrecognised type. *)
Theorem Custom_document (title : string) (elements : list Element) :
  (Forall (fun e => e <> OtherElement) elements ->
   exists m n,
     SendForm_encode (Custom title elements) = Returns m /\
     dom m = {["type"; "title"; "content"]} /\
     m !! "type" = Some (JString "custom_form") /\
     m !! "title" = Some (JString title) /\
     m !! "content" = Some (JMaps n) /\
     Forall2 (fun e d => elemToMap e = Returns d) elements n) /\
  (Exists (fun e => e = OtherElement) elements ->
   SendForm_encode (Custom title elements) = Panics ShouldNeverHappen).
Proof.
  split.
  - intros Hall. destruct (elemsToMaps_returns elements Hall) as (n & Hn & _).
    simpl. rewrite Hn. simpl. eexists; exists n. split; [reflexivity |].
    split; [document_keys |]. repeat (split; [field_lookups |]).
    apply elemsToMaps_Forall2. exact Hn.
  - intros Hex. simpl. rewrite (elemsToMaps_panics elements Hex). reflexivity.
Qed.

Lemma Custom_document_witness :
  exists m n,
    SendForm_encode (Custom "Settings" [Label "Sound"; Toggle "Music" true]) = Returns m /\
    dom m = {["type"; "title"; "content"]} /\
    m !! "type" = Some (JString "custom_form") /\
    m !! "title" = Some (JString "Settings") /\
    m !! "content" = Some (JMaps n) /\
    Forall2 (fun e d => elemToMap e = Returns d) [Label "Sound"; Toggle "Music" true] n.
Proof.
  apply (proj1 (Custom_document "Settings" [Label "Sound"; Toggle "Music" true])).
  repeat constructor; discriminate.
Defined.

(** X3: the document of a [Modal] has the keys type, title, content, button1
    and button2, the last two being the texts of the first two buttons;
    images and further buttons leave no trace.  With fewer than two buttons
    the call panics on the index of the first missing button. *)
Theorem Modal_document (title body : string) (buttons : list Button) :
  match buttons with
  | b0 :: b1 :: rest =>
      (exists m,
         SendForm_encode (Modal title body buttons) = Returns m /\
         dom m = {["type"; "title"; "content"; "button1"; "button2"]} /\
         m !! "type" = Some (JString "modal") /\
         m !! "title" = Some (JString title) /\
         m !! "content" = Some (JString body) /\
         m !! "button1" = Some (JString (Text b0)) /\
         m !! "button2" = Some (JString (Text b1))) /\
      SendForm_encode (Modal title body buttons) =
      SendForm_encode (Modal title body [ {| Text := Text b0; Image := "" |};
                                          {| Text := Text b1; Image := "" |} ])
  | _ =>
      SendForm_encode (Modal title body buttons) =
      Panics (IndexOutOfRange (Z.of_nat (length buttons)) (length buttons))
  end.
Proof.
  destruct buttons as [|b0 [|b1 rest]]; try reflexivity.
  split; [| reflexivity].
  eexists. split; [reflexivity |]. split; [document_keys |].
  repeat split; field_lookups.
Qed.

Lemma menuButton_inj (b1 b2 : Button) : menuButton b1 = menuButton b2 -> b1 = b2.
Proof.
  intros H.
  pose proof (f_equal (fun v : Document => v !! "text") H) as Ht.
  pose proof (f_equal (fun v : Document => v !! "image") H) as Hi.
  clear H. destruct b1 as [t1 i1], b2 as [t2 i2].
  unfold menuButton in Ht, Hi. cbn [Text Image] in Ht, Hi.
  destruct (String.eqb_spec i1 "") as [E1 | H1];
    destruct (String.eqb_spec i2 "") as [E2 | H2]; subst; cbn [negb] in Ht, Hi;
    lookups_in Ht; lookups_in Hi; try discriminate Hi; [congruence |].
  pose proof (f_equal (fun o => match o with
                                | Some (JObject img) => img !! "data"
                                | _ => None
                                end) Hi) as Hd.
  cbv beta iota in Hd. lookups_in Hd. congruence.
Qed.

(** X4: the document of a [Menu] has the keys type, title, content and
    buttons, and the form can be read back from it: two menus with the same
    document have the same title, body and buttons. *)
Theorem Menu_document (title body : string) (buttons : list Button) :
  (exists m,
     SendForm_encode (Menu title body buttons) = Returns m /\
     dom m = {["type"; "title"; "content"; "buttons"]} /\
     m !! "type" = Some (JString "form") /\
     m !! "title" = Some (JString title) /\
     m !! "content" = Some (JString body)) /\
  forall title' body' buttons',
    SendForm_encode (Menu title body buttons) = SendForm_encode (Menu title' body' buttons') ->
    title = title' /\ body = body' /\ buttons = buttons'.
Proof.
  split.
  - eexists. split; [reflexivity |]. split; [document_keys |].
    repeat split; field_lookups.
  - intros title' body' buttons' H.
    pose proof (f_equal (fun o => field o "title") H) as Ht.
    pose proof (f_equal (fun o => field o "content") H) as Hc.
    pose proof (f_equal (fun o => field o "buttons") H) as Hb.
    clear H. simpl in Ht, Hc, Hb.
    lookups_in Ht. lookups_in Hc. lookups_in Hb.
    injection Ht as ->. injection Hc as ->. injection Hb as Hb.
    repeat split.
    revert buttons' Hb. induction buttons as [|b bs IH]; intros [|b' bs'] Hb;
      try discriminate Hb; [reflexivity |].
    simpl in Hb. injection Hb as Hb0 Hbs.
    apply menuButton_inj in Hb0. subst b'. f_equal. apply IH. exact Hbs.
Qed.

Lemma Menu_document_witness :
  "Servers" = "Servers" /\ "Pick one" = "Pick one" /\
  [ {| Text := "Hub"; Image := "https://example.org/hub.png" |} ]
  = [ {| Text := "Hub"; Image := "https://example.org/hub.png" |} ].
Proof.
  apply (proj2 (Menu_document "Servers" "Pick one"
                  [ {| Text := "Hub"; Image := "https://example.org/hub.png" |} ])
           "Servers" "Pick one"
           [ {| Text := "Hub"; Image := "https://example.org/hub.png" |} ]).
  reflexivity.
Defined.

(** X5: a [Custom] form of recognised elements can be read back from its
    document: the same document means the same title and elements. *)
Theorem Custom_document_inj (title title' : string) (elements elements' : list Element) :
  Forall (fun e => e <> OtherElement) elements ->
  SendForm_encode (Custom title elements) = SendForm_encode (Custom title' elements') ->
  title = title' /\ elements = elements'.
Proof.
  intros Hall H.
  destruct (elemsToMaps_returns elements Hall) as (n & Hn & _).
  simpl in H. rewrite Hn in H. simpl in H.
  destruct (elemsToMaps elements') as [n'| |] eqn:Hn'; simpl in H; try discriminate H.
  pose proof (f_equal (fun o => field o "title") H) as Ht.
  pose proof (f_equal (fun o => field o "content") H) as Hc.
  clear H. simpl in Ht, Hc.
  lookups_in Ht. lookups_in Hc.
  injection Ht as ->. injection Hc as <-. split; [reflexivity |].
  apply elemsToMaps_Forall2 in Hn, Hn'.
  clear title'. revert elements' Hn'.
  induction Hn as [|e d es ds Hd _ IH]; intros elements' Hn';
    inversion Hn' as [|e' ? es' ? Hd' Hds']; subst; [reflexivity |].
  inversion Hall as [|? ? He Hes]; subst.
  f_equal.
  - apply elemToMap_same_map; [exact He | congruence].
  - apply IH; assumption.
Qed.

Lemma Custom_document_inj_witness :
  "Settings" = "Settings" /\
  [Label "Sound"; Toggle "Music" true] = [Label "Sound"; Toggle "Music" true].
Proof.
  apply (Custom_document_inj "Settings" "Settings"
           [Label "Sound"; Toggle "Music" true] [Label "Sound"; Toggle "Music" true]).
  - repeat constructor; discriminate.
  - reflexivity.
Defined.

(** X6: the type tag of a document tells the type of the form, and the
    empty document is the one of an unrecognised form, and of no other. *)
Theorem document_type_tag (f : FormValue) (m : Document) :
  SendForm_encode f = Returns m ->
  m !! "type" = type_tag f /\ (m = ∅ <-> f = OtherForm).
Proof.
  intros H. assert (Ht : m !! "type" = type_tag f).
  { destruct f as [title es | title body bs | title body bs |]; simpl in *.
    - destruct (elemsToMaps es); simpl in H; try discriminate H.
      injection H as <-. field_lookups.
    - injection H as <-. field_lookups.
    - destruct bs as [|b0 [|b1 rest]]; try discriminate H.
      injection H as <-. field_lookups.
    - injection H as <-. apply lookup_empty. }
  split; [exact Ht |]. split.
  - intros ->. rewrite lookup_empty in Ht. destruct f; try discriminate Ht. reflexivity.
  - intros ->. injection H as <-. reflexivity.
Qed.

Lemma document_type_tag_witness :
  (∅ : Document) !! "type" = type_tag OtherForm /\
  ((∅ : Document) = ∅ <-> OtherForm = OtherForm).
Proof.
  apply (document_type_tag OtherForm ∅). reflexivity.
Defined.

(** ** More on [HandleForm] *)

Lemma cancelled_dec (data : bytes) : cancelled data \/ ~ cancelled data.
Proof.
  destruct (bytes_Equal data nullBytes || (length data =? 0)%nat) eqn:E.
  - left. apply cancelled_test. exact E.
  - right. intros Hc. apply cancelled_test in Hc. congruence.
Qed.







(** ** More on the session *)

(** X10: nothing in the session writes the remote form identifier: in every
    session reached from a new user, [Remote] is 0. *)
Theorem Remote_is_never_written `{GoJSON} (n : nat) (u : User) :
  run n u -> Remote u = 0.
Proof.
  unfold Remote.
  induction 1 as [| n u f u' pk _ IH Hsend | n u pk u' h _ IH Hhandle].
  - reflexivity.
  - apply SendForm_returns in Hsend as (m & forms1 & _ & _ & _ & -> & _). exact IH.
  - apply HandleForm_returns in Hhandle as (_ & -> & _). exact IH.
Qed.

Lemma Remote_is_never_written_witness : Remote (fst twelve_sends) = 0.
Proof.
  apply (@Remote_is_never_written plainJSON 12 (fst twelve_sends)).
  apply (@SendForms_run plainJSON (replicate 12 confirm) 0 NewUser
           (fst twelve_sends) (snd twelve_sends)).
  - apply run_new.
  - vm_compute. left.
Defined.

(** X11: the table holds only identifiers that [SendForm] has assigned:
    after [n] calls of [SendForm] every key of the table is a uint32 value
    and, as long as the counter has not wrapped around, lies between 1 and
    [n], so that a response with identifier 0 or with an identifier above
    [Local] is never taken for one of the session. *)
Theorem table_holds_assigned_identifiers `{GoJSON} (n : nat) (u : User) :
  run n u ->
  0 <= Local u < uint32_modulus /\
  forall k, is_Some (forms u !! k) ->
    0 <= k < uint32_modulus /\
    (Z.of_nat n < uint32_modulus -> 1 <= k <= Local u /\ Local u = Z.of_nat n).
Proof.
  intros Hrun. destruct (run_counter n u Hrun) as [Hid Hkeys]. unfold Local.
  assert (HM : 0 < uint32_modulus) by (unfold uint32_modulus; lia).
  split; [rewrite Hid; apply Z.mod_pos_bound; exact HM |].
  intros k Hk. destruct (Hkeys k Hk) as (i & Hi & ->).
  split; [apply Z.mod_pos_bound; exact HM |].
  intros Hn. rewrite Hid, !Z.mod_small by lia. lia.
Qed.

Lemma table_holds_assigned_identifiers_witness :
  0 <= Local (fst twelve_sends) < uint32_modulus /\
  forall k, is_Some (forms (fst twelve_sends) !! k) ->
    0 <= k < uint32_modulus /\
    (Z.of_nat 12 < uint32_modulus ->
     1 <= k <= Local (fst twelve_sends) /\ Local (fst twelve_sends) = Z.of_nat 12).
Proof.
  apply (@table_holds_assigned_identifiers plainJSON 12 (fst twelve_sends)).
  apply (@SendForms_run plainJSON (replicate 12 confirm) 0 NewUser
           (fst twelve_sends) (snd twelve_sends)).
  - apply run_new.
  - vm_compute. left.
Defined.

(** X12: a response with an identifier that is not in the table ends the
    session: [HandleForm] returns false with the mutex held, and after it no
    call of [HandleForm] and no call of [SendForm] returns. *)
Theorem unknown_response_ends_session `{GoJSON} (pk : ModalFormResponse.t) (u : User) :
  mu u = false ->
  forms u !! ModalFormResponse.FormID pk = None ->
  exists u',
    HandleForm pk u = Returns (u', {| result := false; submits := [] |}) /\
    (forall pk', HandleForm pk' u' = Blocks) /\
    (forall f o, o ∈ SendForm f u' -> o = Blocks \/ exists p, o = Panics p).
Proof.
  intros Hmu Hf. eexists. split; [apply HandleForm_absent; assumption |].
  split; [reflexivity |].
  intros f o Hin. unfold SendForm in Hin. simpl in Hin.
  destruct (SendForm_encode (value f)); apply list_elem_of_singleton in Hin; eauto.
Qed.

Lemma unknown_response_ends_session_witness :
  exists u',
    HandleForm answer1 NewUser = Returns (u', {| result := false; submits := [] |}) /\
    (forall pk', HandleForm pk' u' = Blocks) /\
    (forall f o, o ∈ @SendForm plainJSON f u' -> o = Blocks \/ exists p, o = Panics p).
Proof.
  apply (@unknown_response_ends_session plainJSON answer1 NewUser).
  - reflexivity.
  - reflexivity.
Defined.

Lemma Uint32_Add_assoc (x : uint32) (i : Z) :
  Uint32_Add ((x + i) mod uint32_modulus) 1 = (x + (i + 1)) mod uint32_modulus.
Proof. unfold Uint32_Add. rewrite Zplus_mod_idemp_l. f_equal. lia. Qed.

Lemma SendForms_packets_from `{GoJSON} (fs : list Form) :
  forall c u u' pks,
    localFormId u = c mod uint32_modulus ->
    (u', pks) ∈ SendForms fs u ->
    length pks = length fs /\
    localFormId u' = (c + Z.of_nat (length fs)) mod uint32_modulus /\
    forall i pk, pks !! i = Some pk ->
      ModalFormRequest.FormID pk = (c + (Z.of_nat i + 1)) mod uint32_modulus /\
      exists f m, fs !! i = Some f /\
        SendForm_encode (value f) = Returns m /\
        ModalFormRequest.FormData pk = default "" (json_Marshal (JObject m)).
Proof.
  induction fs as [|f fs IH]; intros c u u' pks Hc Hin; simpl in Hin.
  - apply list_elem_of_singleton in Hin. injection Hin as -> ->. simpl.
    split; [reflexivity |]. split; [rewrite Z.add_0_r; exact Hc |].
    intros i pk Hpk. rewrite lookup_nil in Hpk. discriminate Hpk.
  - apply list_elem_of_bind in Hin as (o & Hin & Ho).
    destruct o as [[u1 pk1]| |]; try (apply elem_of_nil in Hin; contradiction).
    apply list_elem_of_fmap in Hin as ([u2 pks2] & E & Hin). injection E as -> ->.
    apply SendForm_returns in Ho as (m & forms1 & Hm & _ & _ & Hu1 & ->).
    assert (Hc1 : localFormId u1 = (c + 1) mod uint32_modulus).
    { rewrite Hu1. simpl. rewrite Hc. replace (c + 1) with (c + (0 + 1)) by lia.
      rewrite <- (Z.add_0_r c) at 1. apply Uint32_Add_assoc. }
    destruct (IH (c + 1) u1 u2 pks2 Hc1 Hin) as (Hlen & Hid & Hpks).
    simpl. split; [congruence |]. split.
    { rewrite Hid. f_equal. lia. }
    intros [|i] pk Hpk; simpl in Hpk.
    + injection Hpk as <-. simpl. split.
      * rewrite Hc. rewrite <- (Z.add_0_r c) at 1. apply Uint32_Add_assoc.
      * exists f, m. repeat split. exact Hm.
    + destruct (Hpks i pk Hpk) as (Hfid & Hf). split; [| exact Hf].
      rewrite Hfid. f_equal. lia.
Qed.

(** X13: a run of calls of [SendForm] writes one packet for each form, in
    the order of the calls; the identifiers of the packets are consecutive
    modulo 2^32, starting after the counter, and the data of a packet is
    the marshalled document of its form, whatever the table holds. *)
Theorem SendForms_packets `{GoJSON} (fs : list Form) (u u' : User)
    (pks : list ModalFormRequest.t) :
  0 <= Local u < uint32_modulus ->
  (u', pks) ∈ SendForms fs u ->
  length pks = length fs /\
  Local u' = (Local u + Z.of_nat (length fs)) mod uint32_modulus /\
  forall i pk, pks !! i = Some pk ->
    ModalFormRequest.FormID pk = (Local u + (Z.of_nat i + 1)) mod uint32_modulus /\
    exists f m, fs !! i = Some f /\
      SendForm_encode (value f) = Returns m /\
      ModalFormRequest.FormData pk = default "" (json_Marshal (JObject m)).
Proof.
  intros Hu Hin. unfold Local in *.
  apply (SendForms_packets_from fs (localFormId u) u u' pks); [| exact Hin].
  symmetry. apply Z.mod_small. exact Hu.
Qed.

Lemma SendForms_packets_witness :
  length (snd twelve_sends) = length (replicate 12 confirm) /\
  Local (fst twelve_sends)
    = (Local NewUser + Z.of_nat (length (replicate 12 confirm))) mod uint32_modulus /\
  forall i pk, snd twelve_sends !! i = Some pk ->
    ModalFormRequest.FormID pk = (Local NewUser + (Z.of_nat i + 1)) mod uint32_modulus /\
    exists f m, replicate 12 confirm !! i = Some f /\
      SendForm_encode (value f) = Returns m /\
      ModalFormRequest.FormData pk = default "" (@json_Marshal plainJSON (JObject m)).
Proof.
  apply (@SendForms_packets plainJSON (replicate 12 confirm) NewUser
           (fst twelve_sends) (snd twelve_sends)).
  - vm_compute. split; [discriminate | reflexivity].
  - vm_compute. left.
Defined.

Lemma SendForms_size_from `{GoJSON} (fs : list Form) :
  forall n u u' pks,
    run n u ->
    size (forms u) = Nat.min n 11 ->
    Z.of_nat (n + length fs) < uint32_modulus ->
    (u', pks) ∈ SendForms fs u ->
    size (forms u') = Nat.min (n + length fs) 11.
Proof.
  induction fs as [|f fs IH]; intros n u u' pks Hrun Hsz Hlen Hin; simpl in Hin.
  - apply list_elem_of_singleton in Hin. injection Hin as -> _.
    simpl. rewrite Nat.add_0_r. exact Hsz.
  - apply list_elem_of_bind in Hin as (o & Hin & Ho).
    destruct o as [[u1 pk1]| |]; try (apply elem_of_nil in Hin; contradiction).
    apply list_elem_of_fmap in Hin as ([u2 pks2] & E & Hin). injection E as -> _.
    simpl length in *.
    replace (n + S (length fs))%nat with (S n + length fs)%nat in * by lia.
    pose proof (run_send n u f u1 pk1 Hrun Ho) as Hrun1.
    apply (IH (S n) u1 u2 pks2 Hrun1); [| exact Hlen | exact Hin].
    destruct (run_counter n u Hrun) as [_ Hkeys].
    destruct (run_counter (S n) u1 Hrun1) as [Hid1 _].
    apply SendForm_returns in Ho as (m & forms1 & _ & _ & Hev & -> & _).
    simpl in *. rewrite Hid1. rewrite Z.mod_small by lia.
    assert (Hfresh : forms u !! Z.of_nat (S n) = None).
    { apply eq_None_not_Some. intros Hk. destruct (Hkeys _ Hk) as (i & Hi & E).
      rewrite Z.mod_small in E by lia. lia. }
    apply evicted_size in Hev as [[Hs ->] | (Hs & Hs1 & k & _ & ->)].
    + rewrite map_size_insert_None by exact Hfresh.
      rewrite Hsz in *. lia.
    + rewrite map_size_insert_None.
      * rewrite Hs1, Hsz in *. lia.
      * apply lookup_delete_None. right. exact Hfresh.
Qed.

(** X14: without responses the table fills up to 11 entries and stays
    there: after [n] calls of [SendForm] on a new user, [n] below 2^32, it
    holds the smaller of [n] and 11 entries. *)
Theorem SendForms_table_size `{GoJSON} (fs : list Form) (u' : User)
    (pks : list ModalFormRequest.t) :
  Z.of_nat (length fs) < uint32_modulus ->
  (u', pks) ∈ SendForms fs NewUser ->
  size (forms u') = Nat.min (length fs) 11.
Proof.
  intros Hlen Hin.
  apply (SendForms_size_from fs 0 NewUser u' pks); [apply run_new | | exact Hlen | exact Hin].
  apply map_size_empty.
Qed.

Lemma SendForms_table_size_witness :
  size (forms (fst twelve_sends)) = Nat.min (length (replicate 12 confirm)) 11.
Proof.
  apply (@SendForms_table_size plainJSON (replicate 12 confirm)
           (fst twelve_sends) (snd twelve_sends)).
  - vm_compute. reflexivity.
  - vm_compute. left.
Defined.

Lemma HandleForm_forms (pk : ModalFormResponse.t) (u u' : User) (h : Handled) :
  HandleForm pk u = Returns (u', h) ->
  forms u' = delete (ModalFormResponse.FormID pk) (forms u).
Proof.
  unfold HandleForm. destruct (mu u); [discriminate |].
  destruct (forms u !! ModalFormResponse.FormID pk) as [f|] eqn:Hf.
  - destruct (bytes_Equal _ _ || _); simpl;
      [| destruct (SubmitJSON f _)]; intros E; injection E as <- _; reflexivity.
  - intros E. injection E as <- _. simpl. symmetry. apply delete_id. exact Hf.
Qed.

(** X15: a response that is handled makes room: if the table holds at most
    11 entries and [HandleForm] finds its identifier, the next call of
    [SendForm] evicts nothing, and the table is the old one without the
    entry handled and with the form sent. *)
Theorem HandleForm_makes_room `{GoJSON} (pk : ModalFormResponse.t) (f g : Form)
    (u u1 u2 : User) (h : Handled) (pk2 : ModalFormRequest.t) :
  (size (forms u) <= 11)%nat ->
  forms u !! ModalFormResponse.FormID pk = Some g ->
  HandleForm pk u = Returns (u1, h) ->
  Returns (u2, pk2) ∈ SendForm f u1 ->
  forms u2 = <[ModalFormRequest.FormID pk2 := f]>
               (delete (ModalFormResponse.FormID pk) (forms u)).
Proof.
  intros Hsz Hg Hh Hsend. apply HandleForm_forms in Hh as Hf.
  apply SendForm_returns in Hsend as (m & forms1 & _ & _ & Hev & -> & ->). simpl.
  apply evicted_size in Hev as [[_ ->] | (Hs & _)].
  - rewrite Hf. reflexivity.
  - exfalso. rewrite Hf, map_size_delete_Some in Hs by (exists g; exact Hg). lia.
Qed.

Lemma HandleForm_makes_room_witness :
  forms {| mu := false; forms := {[2 := stranger]}; localFormId := 2; remoteFormId := 0 |}
  = <[ModalFormRequest.FormID
        {| ModalFormRequest.FormID := 2; ModalFormRequest.FormData := "{}" |} := stranger]>
      (delete (ModalFormResponse.FormID cancel1) (forms waiting)).
Proof.
  apply (@HandleForm_makes_room plainJSON cancel1 stranger confirm waiting
           {| mu := false; forms := delete 1 (forms waiting);
              localFormId := 1; remoteFormId := 0 |}
           {| mu := false; forms := {[2 := stranger]}; localFormId := 2; remoteFormId := 0 |}
           {| result := true; submits := [] |}
           {| ModalFormRequest.FormID := 2; ModalFormRequest.FormData := "{}" |}).
  - vm_compute. lia.
  - reflexivity.
  - reflexivity.
  - vm_compute. left.
Defined.

(** ** The earlier [SendForm] *)

(** X16: the earlier [SendForm], which keeps no table, writes the packets
    the present one writes: from the same counter and for the same form,
    every behaviour of the present [SendForm] that returns has written the
    packet of the earlier one, and both leave the same counter.  The earlier
    one returns the error of [WritePacket], and the identifier is used up
    also when the write failed. *)
Theorem Legacy_SendForm_same_packet `{GoJSON}
    (WritePacket : ModalFormRequest.t -> option string)
    (f : Form) (u u' : User) (pk : ModalFormRequest.t) (u0 : Legacy.User) :
  Legacy.Local u0 = Local u ->
  Returns (u', pk) ∈ SendForm f u ->
  exists u0',
    Legacy.SendForm WritePacket f u0 = Returns (u0', pk, WritePacket pk) /\
    Legacy.Local u0' = Local u' /\
    Legacy.Local u0' = ModalFormRequest.FormID pk /\
    Legacy.Remote u0' = Legacy.Remote u0.
Proof.
  intros Hl Hsend.
  apply SendForm_returns in Hsend as (m & forms1 & Hm & _ & _ & -> & ->).
  unfold Legacy.SendForm, Legacy.Local, Local in *. rewrite Hm, Hl. simpl.
  eexists. split; [reflexivity |]. repeat split.
Qed.

Lemma Legacy_SendForm_same_packet_witness :
  exists u0',
    @Legacy.SendForm plainJSON closed stranger Legacy.NewUser
      = Returns (u0', stranger_packet, closed stranger_packet) /\
    Legacy.Local u0' = Local stranger_sent /\
    Legacy.Local u0' = ModalFormRequest.FormID stranger_packet /\
    Legacy.Remote u0' = Legacy.Remote Legacy.NewUser.
Proof.
  apply (@Legacy_SendForm_same_packet plainJSON closed stranger NewUser
           stranger_sent stranger_packet Legacy.NewUser).
  - reflexivity.
  - vm_compute. left.
Defined.

(** ** Marshalling *)

Lemma object_None `{GoJSON} (members : gmap string (option string)) (k : string) :
  members !! k = Some None -> object members = None.
Proof.
  intros Hk. unfold object.
  assert (E : mapM (fun kv : string * option string => v ← snd kv; Some (fst kv, v))
                (map_to_list members) = None).
  { apply mapM_None_2. apply Exists_exists. exists (k, None).
    split; [apply elem_of_map_to_list; exact Hk | reflexivity]. }
  rewrite E. reflexivity.
Qed.

Lemma json_Marshal_maps_None `{GoJSON} (d : Document) (l : list Document) :
  d ∈ l -> json_Marshal (JObject d) = None -> json_Marshal (JMaps l) = None.
Proof.
  intros Hin Hd. destruct l as [|d0 l]; [apply elem_of_nil in Hin; contradiction |].
  change (json_Marshal (JMaps (d0 :: l)))
    with (ms ← mapM id ((fun m => json_Marshal (JObject m)) <$> (d0 :: l));
          Some ("[" ++ join "," ms ++ "]")).
  assert (E : mapM id ((fun m => json_Marshal (JObject m)) <$> (d0 :: l)) = None).
  { apply mapM_None_2. apply Exists_exists. exists None. split; [| reflexivity].
    apply list_elem_of_fmap. exists d. split; [symmetry; exact Hd | exact Hin]. }
  rewrite E. reflexivity.
Qed.

Lemma json_Marshal_field_None `{GoJSON} (m : Document) (k : string) (v : JValue) :
  m !! k = Some v -> json_Marshal v = None -> json_Marshal (JObject m) = None.
Proof.
  intros Hk Hv.
  change (json_Marshal (JObject m)) with (object (json_Marshal <$> m)).
  apply (object_None _ k). rewrite lookup_fmap, Hk. simpl. rewrite Hv. reflexivity.
Qed.

(** X17: an error of [json.Marshal] is dropped.  When a [Custom] form holds a
    slider with a float that cannot be marshalled, [SendForm] still returns:
    the packet is written with no data, the identifier is used up and the
    form waits in the table. *)
Theorem SendForm_drops_marshal_error `{GoJSON} (f : Form) (u : User)
    (title text : string) (elements : list Element) (min max stepSize default : float64) :
  value f = Custom title elements ->
  Forall (fun e => e <> OtherElement) elements ->
  Slider text min max stepSize default ∈ elements ->
  formatFloat min = None \/ formatFloat max = None \/
  formatFloat stepSize = None \/ formatFloat default = None ->
  mu u = false ->
  SendForm f u <> [] /\
  forall o, o ∈ SendForm f u ->
    exists u' pk,
      o = Returns (u', pk) /\
      ModalFormRequest.FormData pk = "" /\
      ModalFormRequest.FormID pk = Uint32_Add (Local u) 1 /\
      Local u' = ModalFormRequest.FormID pk /\
      forms u' !! ModalFormRequest.FormID pk = Some f.
Proof.
  intros Hv Hall Hin Hbad Hmu.
  destruct (elemsToMaps_returns elements Hall) as (n & Hn & _).
  assert (Hm : exists m, SendForm_encode (value f) = Returns m /\
                         m !! "content" = Some (JMaps n)).
  { rewrite Hv. simpl. rewrite Hn. simpl. eexists. split; [reflexivity |]. field_lookups. }
  destruct Hm as (m & Hm & Hcontent).
  assert (Hnone : json_Marshal (JObject m) = None).
  { apply (json_Marshal_field_None m "content" (JMaps n) Hcontent).
    apply elemsToMaps_Forall2 in Hn.
    apply list_elem_of_lookup in Hin as [i Hi].
    destruct (Forall2_lookup_l _ _ _ _ _ Hn Hi) as (d & Hd & Hed).
    apply (json_Marshal_maps_None d n); [apply list_elem_of_lookup; eauto |].
    simpl in Hed. injection Hed as <-.
    destruct Hbad as [Hb | [Hb | [Hb | Hb]]].
    - apply (json_Marshal_field_None _ "min" (JFloat min)); [field_lookups | exact Hb].
    - apply (json_Marshal_field_None _ "max" (JFloat max)); [field_lookups | exact Hb].
    - apply (json_Marshal_field_None _ "step" (JFloat stepSize)); [field_lookups | exact Hb].
    - apply (json_Marshal_field_None _ "default" (JFloat default)); [field_lookups | exact Hb]. }
  destruct (SendForm_outcomes f u m Hm Hmu) as [Hne Hret].
  split; [exact Hne |]. intros o Ho. destruct (Hret o Ho) as (u' & pk & ->).
  exists u', pk. split; [reflexivity |].
  apply SendForm_returns in Ho as (m' & forms1 & Hm' & _ & _ & -> & ->).
  rewrite Hm in Hm'. injection Hm' as <-. rewrite Hnone. simpl.
  repeat split. apply lookup_insert_eq.
Qed.

Lemma SendForm_drops_marshal_error_witness :
  @SendForm strictJSON volume NewUser <> [] /\
  forall o, o ∈ @SendForm strictJSON volume NewUser ->
    exists u' pk,
      o = Returns (u', pk) /\
      ModalFormRequest.FormData pk = "" /\
      ModalFormRequest.FormID pk = Uint32_Add (Local NewUser) 1 /\
      Local u' = ModalFormRequest.FormID pk /\
      forms u' !! ModalFormRequest.FormID pk = Some volume.
Proof.
  apply (@SendForm_drops_marshal_error strictJSON volume NewUser "Settings" "Volume"
           [ Label "Sound";
             Slider "Volume" PrimFloat.zero PrimFloat.nan PrimFloat.one PrimFloat.zero ]
           PrimFloat.zero PrimFloat.nan PrimFloat.one PrimFloat.zero).
  - reflexivity.
  - repeat constructor; discriminate.
  - right. left.
  - right. left. vm_compute. reflexivity.
  - reflexivity.
Defined.

(** X18: a form without elements or buttons is sent with null in place of
    the list: the slice appended to is still nil when it is marshalled.  The
    members of the object come in the order of their keys. *)
Theorem empty_list_is_null `{GoJSON} (title body : string) :
  (exists m,
     SendForm_encode (Custom title []) = Returns m /\
     json_Marshal (JObject m) =
     Some ("{" ++ join "," [ quote "content" ++ ":" ++ "null";
                             quote "title" ++ ":" ++ quote title;
                             quote "type" ++ ":" ++ quote "custom_form" ] ++ "}")) /\
  (exists m,
     SendForm_encode (Menu title body []) = Returns m /\
     json_Marshal (JObject m) =
     Some ("{" ++ join "," [ quote "buttons" ++ ":" ++ "null";
                             quote "content" ++ ":" ++ quote body;
                             quote "title" ++ ":" ++ quote title;
                             quote "type" ++ ":" ++ quote "form" ] ++ "}")).
Proof.
  split; eexists; (split; [reflexivity |]); vm_compute; reflexivity.
Qed.

(** ** A response that comes twice *)

(** X19: a response that arrives a second time ends the session.  The first
    call of [HandleForm] takes the entry; the second, with the same
    identifier, returns false and keeps the mutex, and after it no call of
    [HandleForm] or [SendForm] returns. *)
Theorem duplicate_response_ends_session `{GoJSON} (pk : ModalFormResponse.t) (u : User)
    (f : Form) :
  mu u = false ->
  forms u !! ModalFormResponse.FormID pk = Some f ->
  exists u1 h1 u2,
    HandleForm pk u = Returns (u1, h1) /\
    HandleForm pk u1 = Returns (u2, {| result := false; submits := [] |}) /\
    forms u2 = delete (ModalFormResponse.FormID pk) (forms u) /\
    (forall pk', HandleForm pk' u2 = Blocks) /\
    (forall g o, o ∈ SendForm g u2 -> o = Blocks \/ exists p, o = Panics p).
Proof.
  intros Hmu Hf.
  destruct (HandleForm_present pk u f Hmu Hf) as (h1 & Hh1 & _).
  eexists; exists h1; eexists. split; [exact Hh1 |]. split.
  - apply HandleForm_absent; simpl; [reflexivity | apply lookup_delete_eq].
  - simpl. split; [reflexivity |]. split; [reflexivity |].
    intros g o Hin. unfold SendForm in Hin. simpl in Hin.
    destruct (SendForm_encode (value g)); apply list_elem_of_singleton in Hin; eauto.
Qed.

Lemma duplicate_response_ends_session_witness :
  exists u1 h1 u2,
    HandleForm answer1 waiting = Returns (u1, h1) /\
    HandleForm answer1 u1 = Returns (u2, {| result := false; submits := [] |}) /\
    forms u2 = delete (ModalFormResponse.FormID answer1) (forms waiting) /\
    (forall pk', HandleForm pk' u2 = Blocks) /\
    (forall g o, o ∈ @SendForm plainJSON g u2 -> o = Blocks \/ exists p, o = Panics p).
Proof.
  apply (@duplicate_response_ends_session plainJSON answer1 waiting confirm).
  - reflexivity.
  - reflexivity.
Defined.
